(** * health-bot: credential lifecycle and aggregation engine, shallow embedding

    Python values are modelled by [json] (the values that reach the code
    from [resp.json()], from dict literals and from sqlite rows); Python
    floats are modelled by exact rationals [Q]; exceptions by [res]. *)

From Stdlib Require Import QArith Qround Qabs Qminmax ZArith Bool Lia.
From Stdlib Require Import String.
From stdpp Require Import base gmap strings list.

Set Warnings "-register-all".
Open Scope Q_scope.

(* ------------------------------------------------------------------ *)
(** ** Python values *)

Inductive json : Type :=
| JNull
| JBool (b : bool)
| JInt (z : Z)
| JFloat (q : Q)
| JStr (s : string)
| JList (l : list json)
| JObj (d : list (string * json)).

(** A Python dict with string keys, in insertion order. *)
Abbreviation dict := (list (string * json)).

Fixpoint dict_lookup (d : dict) (k : string) : option json :=
  match d with
  | [] => None
  | (k', v) :: d' => if String.eqb k k' then Some v else dict_lookup d' k
  end.

(** [d.get(k, default)] *)
Definition dict_get_or (d : dict) (k : string) (dflt : json) : json :=
  match dict_lookup d k with Some v => v | None => dflt end.

(** [d.get(k)] *)
Definition dict_get (d : dict) (k : string) : json := dict_get_or d k JNull.

(** Python truthiness, [bool(v)]. *)
Definition truthy (v : json) : bool :=
  match v with
  | JNull => false
  | JBool b => b
  | JInt z => negb (Z.eqb z 0)
  | JFloat q => negb (Qeq_bool q 0)
  | JStr s => negb (String.eqb s "")
  | JList l => negb (List.length l =? 0)%nat
  | JObj d => negb (List.length d =? 0)%nat
  end.

(** [a or b] *)
Definition py_or (a b : json) : json := if truthy a then a else b.

(* ------------------------------------------------------------------ *)
(** ** Exceptions *)

Inductive exn_kind : Type :=
| TypeError | ValueError | KeyError | AttributeError | IndexError
| HTTPError | RequestException | WhoopAuthError | OuraAuthError
| OperationalError | IntegrityError | InterfaceError.

Record exn : Type := Exn { exn_kind_of : exn_kind; exn_msg : string }.

Inductive res (A : Type) : Type :=
| Ok (a : A)
| Raise (e : exn).
Arguments Ok {A} a.
Arguments Raise {A} e.

Definition res_bind {A B} (m : res A) (k : A -> res B) : res B :=
  match m with Ok a => k a | Raise e => Raise e end.

Notation "'let!' x := m 'in' k" := (res_bind m (fun x => k))
  (at level 200, x name, m at level 100, k at level 200).

(* ------------------------------------------------------------------ *)
(** ** Python's [round(x, 1)] on a float: ties to even *)

Definition round_half_even (q : Q) : Z :=
  let f := Qfloor q in
  match Qcompare (q - inject_Z f) (1 # 2) with
  | Lt => f
  | Gt => (f + 1)%Z
  | Eq => if Z.even f then f else (f + 1)%Z
  end.

Definition py_round1 (x : Q) : Q := Qmake (round_half_even (x * 10)) 10.

(** [min(a, b)] returns [a] unless [b < a]; [max(a, b)] returns [a] unless [b > a]. *)
Definition py_min (a b : Q) : Q := if Qlt_le_dec b a then b else a.
Definition py_max (a b : Q) : Q := if Qlt_le_dec a b then b else a.

(* ------------------------------------------------------------------ *)
(** ** aggregator.py: scoring helpers *)

Section Scoring.

(** [float(s)] on a string: the number the string denotes, [None] when
    [float] raises [ValueError]. *)
Variable float_of_str : string -> option Q.

(** [_safe(value)] with the default [None]. *)
Definition _safe (value : json) : option Q :=
  match value with
  | JNull => None
  | JBool b => Some (if b then 1 else 0)
  | JInt z => Some (inject_Z z)
  | JFloat q => Some q
  | JStr s => float_of_str s
  | JList _ | JObj _ => None (* TypeError, caught *)
  end.

Definition _composite_recovery (whoop oura : dict) : option Q :=
  let w_score := _safe (dict_get whoop "recovery_score") in
  let o_score := _safe (dict_get oura "readiness_score") in
  match w_score, o_score with
  | Some w, Some o => Some (py_round1 (w * (1 # 2) + o * (1 # 2)))
  | Some w, None => Some (py_round1 w)
  | None, Some o => Some (py_round1 o)
  | None, None => None
  end.

Definition _training_readiness (whoop oura : dict) (composite : option Q) : option Q :=
  match composite with
  | None => None
  | Some c =>
      let score := c in
      let score :=
        match _safe (dict_get oura "stress_high") with
        | Some stress => score - py_min 10 (stress * (5 # 4))
        | None => score
        end in
      let score :=
        match _safe (dict_get oura "temperature_deviation") with
        | Some temp_dev => score - py_min 5 (Qabs temp_dev * 5)
        | None => score
        end in
      let score :=
        match _safe (dict_get whoop "spo2") with
        | Some spo2 => if Qlt_le_dec spo2 95 then score - (95 - spo2) * 2 else score
        | None => score
        end in
      Some (py_round1 (py_max 0 (py_min 100 score)))
  end.

End Scoring.

(* ------------------------------------------------------------------ *)
(** ** State passing with exceptions

    A Python exception does not undo the state changes made before it
    was raised, so [Raise] keeps the current state. *)

Definition st (S A : Type) : Type := S -> res A * S.

Definition st_ret {S A} (a : A) : st S A := fun s => (Ok a, s).
Definition st_lift {S A} (r : res A) : st S A := fun s => (r, s).
Definition st_raise {S A} (e : exn) : st S A := fun s => (Raise e, s).
Definition st_bind {S A B} (m : st S A) (k : A -> st S B) : st S B :=
  fun s => match m s with
           | (Ok a, s') => k a s'
           | (Raise e, s') => (Raise e, s')
           end.
(** [try: m except Exception as e: h(e)] *)
Definition st_try {S A} (m : st S A) (h : exn -> st S A) : st S A :=
  fun s => match m s with
           | (Ok a, s') => (Ok a, s')
           | (Raise e, s') => h e s'
           end.

Notation "'let*' x := m 'in' k" := (st_bind m (fun x => k))
  (at level 200, x name, m at level 100, k at level 200).

(* ------------------------------------------------------------------ *)
(** ** Python operations that may raise *)

(** [v.get(k, default)] on a value that must be a dict. *)
Definition py_get (v : json) (k : string) (dflt : json) : res json :=
  match v with
  | JObj d => Ok (dict_get_or d k dflt)
  | _ => Raise (Exn AttributeError "object has no attribute 'get'")
  end.

(** [v[0]] *)
Definition py_index0 (v : json) : res json :=
  match v with
  | JList (x :: _) => Ok x
  | JList [] => Raise (Exn IndexError "list index out of range")
  | JStr (String c _) => Ok (JStr (String c EmptyString))
  | JStr EmptyString => Raise (Exn IndexError "string index out of range")
  | JObj _ => Raise (Exn KeyError "0")
  | _ => Raise (Exn TypeError "object is not subscriptable")
  end.

(** Numeric view of [bool], [int] and [float]; [Left] for ints, [Right] for floats. *)
Definition py_num (v : json) : option (Z + Q) :=
  match v with
  | JBool b => Some (inl (if b then 1 else 0)%Z)
  | JInt z => Some (inl z)
  | JFloat q => Some (inr q)
  | _ => None
  end.

Definition num_to_Q (n : Z + Q) : Q := match n with inl z => inject_Z z | inr q => q end.

(** [a + b] *)
Definition py_add (a b : json) : res json :=
  match py_num a, py_num b with
  | Some (inl x), Some (inl y) => Ok (JInt (x + y))
  | Some x, Some y => Ok (JFloat (num_to_Q x + num_to_Q y))
  | _, _ =>
      match a, b with
      | JStr x, JStr y => Ok (JStr (String.append x y))
      | JList x, JList y => Ok (JList (x ++ y))
      | _, _ => Raise (Exn TypeError "unsupported operand type(s) for +")
      end
  end.

(** [a / n] (true division by a non-zero int constant) *)
Definition py_div_const (a : json) (n : Z) : res json :=
  match py_num a with
  | Some x => Ok (JFloat (num_to_Q x / inject_Z n))
  | None => Raise (Exn TypeError "unsupported operand type(s) for /")
  end.

(** [round(v, 1)]: a float for a float, an int for an int or a bool. *)
Definition py_round1_json (v : json) : res json :=
  match py_num v with
  | Some (inl z) => Ok (JInt z)
  | Some (inr q) => Ok (JFloat (py_round1 q))
  | None => Raise (Exn TypeError "type doesn't define __round__ method")
  end.

(* ------------------------------------------------------------------ *)
(** ** HTTP *)

(** What [requests] gives back for one request: a connection-level
    exception, or a response with its status code, the message
    [raise_for_status] puts into the [HTTPError] it raises, and its body
    ([None] when [resp.json()] raises). *)
Inductive http_outcome : Type :=
| NetError (msg : string)
| Response (status : Z) (error_text : string) (body : option json).

(** [resp.raise_for_status(); return resp.json()] *)
Definition raise_for_status_json (r : http_outcome) : res json :=
  match r with
  | NetError msg => Raise (Exn RequestException msg)
  | Response status txt body =>
      if (400 <=? status)%Z then Raise (Exn HTTPError txt)
      else match body with
           | Some j => Ok j
           | None => Raise (Exn ValueError "Expecting value: line 1 column 1 (char 0)")
           end
  end.

(* ------------------------------------------------------------------ *)
(** ** clients/whoop_client.py *)

Section WhoopClient.

(** The state [get_valid_token] reads and may update (the token store). *)
Variable S : Type.
(** [get_valid_token(self.chat_id, "whoop")] *)
Variable valid_token : st S json.
(** The provider's answer to [GET base+path?params] sent with a token. *)
Variable net : json -> string -> dict -> http_outcome.
(** [_today_window()] *)
Variable window : string * string.

Definition whoop_headers : st S json :=
  let* token := valid_token in
  if truthy token then st_ret token
  else st_raise (Exn WhoopAuthError "No valid Whoop token. Run /connect_whoop first.").

Definition whoop_get (path : string) (params : dict) : st S json :=
  let* token := whoop_headers in
  match net token path params with
  | Response 401 _ _ => st_raise (Exn WhoopAuthError "Whoop token expired or invalid.")
  | r => st_lift (raise_for_status_json r)
  end.

Definition whoop_latest (endpoint : string) : st S json :=
  st_try
    (let* data := whoop_get endpoint [("start", JStr (fst window)); ("end", JStr (snd window));
                                      ("limit", JInt 1)] in
     let* records := st_lift (py_get data "records" (JList [])) in
     if truthy records then st_lift (py_index0 records)
     else
       let* data := whoop_get endpoint [("limit", JInt 1)] in
       let* records := st_lift (py_get data "records" (JList [])) in
       if truthy records then st_lift (py_index0 records) else st_ret JNull)
    (fun _ => st_ret JNull).

Definition whoop_get_recovery : st S json := whoop_latest "/recovery".
Definition whoop_get_sleep : st S json := whoop_latest "/activity/sleep".
Definition whoop_get_workout : st S json :=
  st_try
    (let* data := whoop_get "/activity/workout"
                    [("start", JStr (fst window)); ("end", JStr (snd window)); ("limit", JInt 1)] in
     let* records := st_lift (py_get data "records" (JList [])) in
     if truthy records then st_lift (py_index0 records) else st_ret JNull)
    (fun _ => st_ret JNull).

(** [round((x or 0) / 60000, 1) or None] *)
Definition stage_minutes (x : json) : res json :=
  let! d := py_div_const (py_or x (JInt 0)) 60000 in
  let! r := py_round1_json d in
  Ok (py_or r JNull).

(** [round(total / 60000, 1) if total else None] *)
Definition total_minutes (total : json) : res json :=
  if truthy total then (let! d := py_div_const total 60000 in py_round1_json d) else Ok JNull.

(** The body of [get_all] after the three fetches, on
    [recovery], [sleep] and [workout] already replaced by [{}] when falsy. *)
Definition whoop_normalize (recovery sleep workout : json) : res dict :=
  let! score := py_get recovery "score" (JObj []) in
  let score := py_or score (JObj []) in
  let! recovery_score := py_get score "recovery_score" JNull in
  let! hrv_rmssd := py_get score "hrv_rmssd_milli" JNull in
  let! rhr := py_get score "resting_heart_rate" JNull in
  let! spo2 := py_get score "spo2_percentage" JNull in
  let! skin_temp_c := py_get score "skin_temp_celsius" JNull in
  let! sleep_score := py_get sleep "score" (JObj []) in
  let sleep_score := py_or sleep_score (JObj []) in
  let! stage := py_get sleep_score "stage_summary" (JObj []) in
  let stage := py_or stage (JObj []) in
  let! light := py_get stage "total_light_sleep_time_milli" JNull in
  let! sws := py_get stage "total_slow_wave_sleep_time_milli" JNull in
  let! rem := py_get stage "total_rem_sleep_time_milli" JNull in
  let! t1 := py_add (py_or light (JInt 0)) (py_or sws (JInt 0)) in
  let! total_sleep_milli := py_add t1 (py_or rem (JInt 0)) in
  let! sleep_duration_min := total_minutes total_sleep_milli in
  let! sleep_efficiency := py_get sleep_score "sleep_efficiency_percentage" JNull in
  let! sleep_performance := py_get sleep_score "sleep_performance_percentage" JNull in
  let! sleep_consistency := py_get sleep_score "sleep_consistency_percentage" JNull in
  let! respiratory_rate := py_get sleep_score "respiratory_rate" JNull in
  let! disturbance_count := py_get stage "disturbance_count" JNull in
  let! sleep_cycles := py_get stage "sleep_cycle_count" JNull in
  let! x := py_get stage "total_light_sleep_time_milli" JNull in
  let! light_sleep_min := stage_minutes x in
  let! x := py_get stage "total_slow_wave_sleep_time_milli" JNull in
  let! deep_sleep_min := stage_minutes x in
  let! x := py_get stage "total_rem_sleep_time_milli" JNull in
  let! rem_sleep_min := stage_minutes x in
  let! x := py_get stage "total_awake_time_milli" JNull in
  let! awake_min := stage_minutes x in
  let! sleep_need := py_get sleep_score "sleep_needed" (JObj []) in
  let sleep_need := py_or sleep_need (JObj []) in
  let! nb := py_get sleep_need "baseline_milli" JNull in
  let! nd := py_get sleep_need "need_from_sleep_debt_milli" JNull in
  let! ns := py_get sleep_need "need_from_recent_strain_milli" JNull in
  let! n1 := py_add (py_or nb (JInt 0)) (py_or nd (JInt 0)) in
  let! need_total_milli := py_add n1 (py_or ns (JInt 0)) in
  let! sleep_needed_min := total_minutes need_total_milli in
  let! workout_score := py_get workout "score" (JObj []) in
  let workout_score := py_or workout_score (JObj []) in
  let! workout_strain := py_get workout_score "strain" JNull in
  Ok [("recovery_score", recovery_score); ("hrv_rmssd", hrv_rmssd); ("rhr", rhr);
      ("spo2", spo2); ("skin_temp_c", skin_temp_c);
      ("sleep_duration_min", sleep_duration_min); ("sleep_efficiency", sleep_efficiency);
      ("sleep_performance", sleep_performance); ("sleep_consistency", sleep_consistency);
      ("respiratory_rate", respiratory_rate); ("disturbance_count", disturbance_count);
      ("sleep_cycles", sleep_cycles); ("light_sleep_min", light_sleep_min);
      ("deep_sleep_min", deep_sleep_min); ("rem_sleep_min", rem_sleep_min);
      ("awake_min", awake_min); ("sleep_needed_min", sleep_needed_min);
      ("workout_strain", workout_strain);
      ("_raw", JObj [("recovery", recovery); ("sleep", sleep); ("workout", workout)])].

Definition whoop_get_all : st S dict :=
  let* recovery := whoop_get_recovery in
  let* sleep := whoop_get_sleep in
  let* workout := whoop_get_workout in
  st_lift (whoop_normalize (py_or recovery (JObj [])) (py_or sleep (JObj []))
                           (py_or workout (JObj []))).

End WhoopClient.

(* ------------------------------------------------------------------ *)
(** ** SQLite: the [INSERT ... ON CONFLICT(target) DO UPDATE SET ...]
       statements of the metrics tables

    Only what these statements exercise: the conflict target must be the
    column set of a PRIMARY KEY or UNIQUE constraint of the table (else
    the statement is rejected when prepared), parameters are bound, NOT
    NULL is checked on the row to insert, and a row agreeing with it on
    the target columns (none NULL) is updated in place, otherwise the row
    is appended. Columns omitted from the INSERT take their DEFAULT;
    an AUTOINCREMENT key takes the next sequence number. Type affinity
    conversions are not modelled. *)

Inductive sqlval : Type :=
| SNull
| SInt (z : Z)
| SReal (q : Q)
| SText (s : string).

Abbreviation row := (list (string * sqlval)).

Record table_schema : Type := {
  t_name : string;
  t_cols : list string;
  t_notnull : list string;
  t_unique : list (list string);   (* PRIMARY KEY and UNIQUE constraints *)
  t_autoinc : option string;
  t_defaults : Z -> list (string * sqlval)   (* DEFAULT values, given the time *)
}.

Record table : Type := { t_rows : list row; t_seq : Z }.

(** Parameter binding of the [sqlite3] module. *)
Definition bind_param (v : json) : res sqlval :=
  match v with
  | JNull => Ok SNull
  | JBool b => Ok (SInt (if b then 1 else 0)%Z)
  | JInt z => Ok (SInt z)
  | JFloat q => Ok (SReal q)
  | JStr s => Ok (SText s)
  | JList _ | JObj _ =>
      Raise (Exn InterfaceError "Error binding parameter: type is not supported")
  end.

Fixpoint bind_params (vs : list json) : res (list sqlval) :=
  match vs with
  | [] => Ok []
  | v :: vs' => let! x := bind_param v in let! xs := bind_params vs' in Ok (x :: xs)
  end.

Fixpoint assoc {A} (l : list (string * A)) (k : string) : option A :=
  match l with
  | [] => None
  | (k', v) :: l' => if String.eqb k k' then Some v else assoc l' k
  end.

Definition row_get (r : row) (c : string) : sqlval := default SNull (assoc r c).

Definition sql_is_null (v : sqlval) : bool := match v with SNull => true | _ => false end.

(** Equality of two non-NULL values as a UNIQUE constraint sees it. *)
Definition sql_same (a b : sqlval) : bool :=
  match a, b with
  | SInt x, SInt y => Z.eqb x y
  | SReal x, SReal y => Qeq_bool x y
  | SInt x, SReal y | SReal y, SInt x => Qeq_bool (inject_Z x) y
  | SText x, SText y => String.eqb x y
  | _, _ => false
  end.

Definition same_cols (u v : list string) : bool :=
  forallb (fun c => existsb (String.eqb c) v) u && forallb (fun c => existsb (String.eqb c) u) v.

Definition conflicts_on (cols : list string) (r1 r2 : row) : bool :=
  forallb (fun c => sql_same (row_get r1 c) (row_get r2 c)) cols.

Fixpoint replace_first (p : row -> bool) (f : row -> row) (rs : list row) : option (list row) :=
  match rs with
  | [] => None
  | r :: rs' => if p r then Some (f r :: rs')
                else option_map (cons r) (replace_first p f rs')
  end.

Definition exec_upsert (sch : table_schema) (now : Z) (cols : list string) (params : list json)
    (target : list string) (set_cols : list string) (t : table) : res table :=
  if negb (existsb (same_cols target) (t_unique sch)) then
    Raise (Exn OperationalError
             "ON CONFLICT clause does not match any PRIMARY KEY or UNIQUE constraint")
  else
    let! vals := bind_params params in
    let given := combine cols vals in
    let id := (t_seq t + 1)%Z in
    let new :=
      map (fun c => (c, match assoc given c with
                        | Some v => v
                        | None =>
                            if match t_autoinc sch with Some a => String.eqb a c | None => false end
                            then SInt id
                            else default SNull (assoc (t_defaults sch now) c)
                        end)) (t_cols sch) in
    match List.find (fun c => sql_is_null (row_get new c)) (t_notnull sch) with
    | Some c => Raise (Exn IntegrityError
                         (String.append "NOT NULL constraint failed: "
                            (String.append (t_name sch) (String.append "." c))))
    | None =>
        let upd (old : row) :=
          map (fun '(c, v) => (c, if existsb (String.eqb c) set_cols then row_get new c else v)) old in
        match replace_first (fun old => conflicts_on target old new) upd (t_rows t) with
        | Some rows => Ok {| t_rows := rows; t_seq := t_seq t |}
        | None =>
            if existsb (fun u => existsb (fun old => conflicts_on u old new) (t_rows t))
                       (t_unique sch)
            then Raise (Exn IntegrityError "UNIQUE constraint failed")
            else Ok {| t_rows := t_rows t ++ [new]; t_seq := id |}
        end
    end.

(** ** database/db.py: the metrics tables of [init_db] *)

Definition whoop_metrics_schema : table_schema := {|
  t_name := "whoop_metrics";
  t_cols := ["id"; "chat_id"; "date"; "recovery_score"; "hrv_rmssd"; "rhr"; "spo2";
             "skin_temp_c"; "sleep_score"; "sleep_duration_min"; "sleep_efficiency";
             "workout_strain"; "raw_json"; "created_at"];
  t_notnull := ["chat_id"; "date"];
  t_unique := [["id"]; ["chat_id"; "date"]];
  t_autoinc := Some "id";
  t_defaults := fun now => [("created_at", SInt now)] |}.

Definition oura_metrics_schema : table_schema := {|
  t_name := "oura_metrics";
  t_cols := ["id"; "chat_id"; "date"; "readiness_score"; "readiness_contributors";
             "sleep_score"; "sleep_contributors"; "activity_score"; "activity_contributors";
             "stress_high"; "recovery_high"; "day_summary"; "temperature_deviation";
             "temperature_trend_deviation"; "raw_json"; "created_at"];
  t_notnull := ["chat_id"; "date"];
  t_unique := [["id"]; ["chat_id"; "date"]];
  t_autoinc := Some "id";
  t_defaults := fun now => [("created_at", SInt now)] |}.

Definition daily_scores_schema : table_schema := {|
  t_name := "daily_scores";
  t_cols := ["id"; "chat_id"; "date"; "composite_recovery"; "training_readiness";
             "whoop_weight"; "oura_weight"; "notes"; "created_at"];
  t_notnull := ["chat_id"; "date"];
  t_unique := [["id"]; ["chat_id"; "date"]];
  t_autoinc := Some "id";
  t_defaults := fun now => [("whoop_weight", SReal (1 # 2)); ("oura_weight", SReal (1 # 2));
                            ("created_at", SInt now)] |}.

Record metrics_db : Type := {
  whoop_metrics : table;
  oura_metrics : table;
  daily_scores : table
}.

#[global] Instance exn_kind_eq_dec : EqDecision exn_kind.
Proof. solve_decision. Defined.

(* ------------------------------------------------------------------ *)
(** ** aggregator.py: persistence and [aggregate] *)

Section Aggregation.

Variable float_of_str : string -> option Q.
(** [json.dumps] *)
Variable json_dumps : json -> string.

Definition opt_param (v : option Q) : json := match v with Some q => JFloat q | None => JNull end.
Definition safe_param (v : json) : json := opt_param (_safe float_of_str v).

Definition _save_whoop (now : Z) (today : string) (w : dict) (t : table) : res table :=
  let raw := json_dumps (dict_get_or w "_raw" (JObj [])) in
  exec_upsert whoop_metrics_schema now
    ["date"; "recovery_score"; "hrv_rmssd"; "rhr"; "spo2"; "skin_temp_c"; "sleep_score";
     "sleep_duration_min"; "sleep_efficiency"; "workout_strain"; "raw_json"]
    [JStr today; safe_param (dict_get w "recovery_score"); safe_param (dict_get w "hrv_rmssd");
     safe_param (dict_get w "rhr"); safe_param (dict_get w "spo2");
     safe_param (dict_get w "skin_temp_c"); safe_param (dict_get w "sleep_score");
     safe_param (dict_get w "sleep_duration_min"); safe_param (dict_get w "sleep_efficiency");
     safe_param (dict_get w "workout_strain"); JStr raw]
    ["date"]
    ["recovery_score"; "hrv_rmssd"; "rhr"; "spo2"; "skin_temp_c"; "sleep_score";
     "sleep_duration_min"; "sleep_efficiency"; "workout_strain"; "raw_json"]
    t.

Definition _save_oura (now : Z) (today : string) (o : dict) (t : table) : res table :=
  let raw := json_dumps (dict_get_or o "_raw" (JObj [])) in
  exec_upsert oura_metrics_schema now
    ["date"; "readiness_score"; "readiness_contributors"; "sleep_score"; "sleep_contributors";
     "activity_score"; "activity_contributors"; "stress_high"; "recovery_high"; "day_summary";
     "temperature_deviation"; "temperature_trend_deviation"; "raw_json"]
    [JStr today; dict_get o "readiness_score";
     JStr (json_dumps (dict_get o "readiness_contributors"));
     dict_get o "sleep_score"; JStr (json_dumps (dict_get o "sleep_contributors"));
     dict_get o "activity_score"; JStr (json_dumps (dict_get o "activity_contributors"));
     safe_param (dict_get o "stress_high"); safe_param (dict_get o "recovery_high");
     dict_get o "day_summary"; safe_param (dict_get o "temperature_deviation");
     safe_param (dict_get o "temperature_trend_deviation"); JStr raw]
    ["date"]
    ["readiness_score"; "readiness_contributors"; "sleep_score"; "sleep_contributors";
     "activity_score"; "activity_contributors"; "stress_high"; "recovery_high"; "day_summary";
     "temperature_deviation"; "temperature_trend_deviation"; "raw_json"]
    t.

Definition _save_daily_scores (now : Z) (today : string) (composite training : option Q)
    (t : table) : res table :=
  exec_upsert daily_scores_schema now
    ["date"; "composite_recovery"; "training_readiness"]
    [JStr today; opt_param composite; opt_param training]
    ["date"]
    ["composite_recovery"; "training_readiness"]
    t.

Record agg_result : Type := {
  r_date : string;
  r_whoop : dict;
  r_oura : dict;
  r_composite_recovery : option Q;
  r_training_readiness : option Q;
  r_errors : list string
}.

(** [try: d = Client().get_all() except AuthError as e: errors.append(f"{label}: {e}")
    except Exception as e: errors.append(f"{label} error: {e}")], from [d = {}]. *)
Definition fetch_into (label : string) (auth : exn_kind) (r : res dict) : dict * list string :=
  match r with
  | Ok d => (d, [])
  | Raise e =>
      ([], [if decide (exn_kind_of e = auth)
            then String.append label (String.append ": " (exn_msg e))
            else String.append label (String.append " error: " (exn_msg e))])
  end.

(** [d and not all(v is None for k, v in d.items() if not k.startswith("_"))] *)
Definition has_data (d : dict) : bool :=
  match d with
  | [] => false
  | _ => negb (forallb (fun '(k, v) =>
                          if String.prefix "_" k then true
                          else match v with JNull => true | _ => false end) d)
  end.

Definition in_whoop (f : table -> res table) : st metrics_db unit :=
  fun db => match f (whoop_metrics db) with
            | Ok t => (Ok tt, {| whoop_metrics := t; oura_metrics := oura_metrics db;
                                 daily_scores := daily_scores db |})
            | Raise e => (Raise e, db)
            end.
Definition in_oura (f : table -> res table) : st metrics_db unit :=
  fun db => match f (oura_metrics db) with
            | Ok t => (Ok tt, {| whoop_metrics := whoop_metrics db; oura_metrics := t;
                                 daily_scores := daily_scores db |})
            | Raise e => (Raise e, db)
            end.
Definition in_daily (f : table -> res table) : st metrics_db unit :=
  fun db => match f (daily_scores db) with
            | Ok t => (Ok tt, {| whoop_metrics := whoop_metrics db; oura_metrics := oura_metrics db;
                                 daily_scores := t |})
            | Raise e => (Raise e, db)
            end.

(** The body of [aggregate], given the outcome of the two [get_all] calls
    ([today] is [date.today().isoformat()], [now] the time the rows get). *)
Definition aggregate_with (today : string) (now : Z) (whoop_fetch oura_fetch : res dict)
    : st metrics_db agg_result :=
  let '(whoop, errors_w) := fetch_into "Whoop" WhoopAuthError whoop_fetch in
  let '(oura, errors_o) := fetch_into "Oura" OuraAuthError oura_fetch in
  let errors := errors_w ++ errors_o in
  let composite := _composite_recovery float_of_str whoop oura in
  let training := _training_readiness float_of_str whoop oura composite in
  let* _ := if has_data whoop then in_whoop (_save_whoop now today whoop) else st_ret tt in
  let* _ := if has_data oura then in_oura (_save_oura now today oura) else st_ret tt in
  let* _ := match composite, training with
            | None, None => st_ret tt
            | _, _ => in_daily (_save_daily_scores now today composite training)
            end in
  st_ret {| r_date := today; r_whoop := whoop; r_oura := oura;
            r_composite_recovery := composite; r_training_readiness := training;
            r_errors := errors |}.

(** [aggregate()]: [WhoopClient()] is called without the [chat_id] its
    constructor requires, so the Whoop fetch always raises [TypeError];
    [oura_fetch] is the outcome of [OuraClient().get_all()]. *)
Definition aggregate (today : string) (now : Z) (oura_fetch : res dict) : st metrics_db agg_result :=
  aggregate_with today now
    (Raise (Exn TypeError "WhoopClient.__init__() missing 1 required positional argument: 'chat_id'"))
    oura_fetch.

End Aggregation.

(* ------------------------------------------------------------------ *)
(** ** auth/flask_server.py: the OAuth tables and the token lifecycle *)

(** A row of [oauth_tokens], keyed by [(chat_id, provider)]. *)
Record token_row : Type := {
  tr_access_token : sqlval;
  tr_refresh_token : sqlval;
  tr_expires_at : sqlval;
  tr_updated_at : Z
}.

Record auth_db : Type := {
  oauth_states : gmap string (string * Z);          (* state -> (provider, chat_id) *)
  oauth_tokens : gmap (Z * string) token_row
}.

(** A column value as Python receives it from [sqlite3]. *)
Definition sql_to_py (v : sqlval) : json :=
  match v with
  | SNull => JNull
  | SInt z => JInt z
  | SReal q => JFloat q
  | SText s => JStr s
  end.

(** [v[k]] on a value that must be a dict. *)
Definition py_getitem (v : json) (k : string) : res json :=
  match v with
  | JObj d => match dict_lookup d k with
              | Some x => Ok x
              | None => Raise (Exn KeyError k)
              end
  | JStr _ | JList _ => Raise (Exn TypeError "indices must be integers")
  | _ => Raise (Exn TypeError "object is not subscriptable")
  end.

(** [_pop_state(state)] *)
Definition _pop_state (state : string) : st auth_db (option (string * Z)) :=
  fun db =>
    match oauth_states db !! state with
    | Some r => (Ok (Some r), {| oauth_states := delete state (oauth_states db);
                                 oauth_tokens := oauth_tokens db |})
    | None => (Ok None, db)
    end.

(** The row [_save_token] writes, once its parameters are bound. *)
Definition token_params (token_data : json) (now : Z) : res token_row :=
  let! expires_in := py_get token_data "expires_in" (JInt 3600) in
  let! expires_at := py_add (JInt now) expires_in in
  let! access_token := py_getitem token_data "access_token" in
  let! refresh := py_get token_data "refresh_token" JNull in
  let! a := bind_param access_token in
  let! r := bind_param refresh in
  let! e := bind_param expires_at in
  match a with
  | SNull => Raise (Exn IntegrityError "NOT NULL constraint failed: oauth_tokens.access_token")
  | _ => Ok {| tr_access_token := a; tr_refresh_token := r; tr_expires_at := e;
               tr_updated_at := now |}
  end.

(** [_save_token(chat_id, provider, token_data)]: the conflict target is
    the primary key and every other column is set from [excluded], so the
    upsert stores the new row under the key. A failure rolls back. *)
Definition _save_token (chat_id : Z) (provider : string) (token_data : json) (now : Z)
    : st auth_db unit :=
  fun db =>
    match token_params token_data now with
    | Ok row => (Ok tt, {| oauth_states := oauth_states db;
                           oauth_tokens := <[(chat_id, provider) := row]> (oauth_tokens db) |})
    | Raise e => (Raise e, db)
    end.

Definition known_provider (provider : string) : bool :=
  String.eqb provider "whoop" || String.eqb provider "oura".

(** [refresh_token(chat_id, provider)]; [resp] is the provider's answer
    to the refresh request; [now] is the clock [_save_token] reads.
    [None] is [JNull]. *)
Definition refresh_token (chat_id : Z) (provider : string) (resp : http_outcome) (now : Z)
    : st auth_db json :=
  fun db =>
    match oauth_tokens db !! (chat_id, provider) with
    | None => (Ok JNull, db)
    | Some row =>
        if negb (truthy (sql_to_py (tr_refresh_token row))) then (Ok JNull, db)
        else
          st_try
            (if known_provider provider then
               let* token_data := st_lift (raise_for_status_json resp) in
               let* _ := _save_token chat_id provider token_data now in
               st_lift (py_getitem token_data "access_token")
             else st_ret JNull)
            (fun _ => st_ret JNull) db
    end.



(** [if error:] on [request.args.get("error")] *)
Definition error_given (error : option string) : bool :=
  match error with Some e => negb (String.eqb e "") | None => false end.

Definition h2 (s : string) : string := String.append "<h2>" (String.append s "</h2>").

(** The [try] block of a callback: [exchange] is the provider's answer to
    the token request carrying [code]. *)
Definition exchange_and_save (provider label : string) (chat_id : Z) (exchange : http_outcome)
    (now : Z) : st auth_db (string * Z) :=
  st_try
    (let* token_data := st_lift (raise_for_status_json exchange) in
     let* _ := _save_token chat_id provider token_data now in
     st_ret (h2 (String.append label " connected! You can close this tab."), 200%Z))
    (fun e => st_ret (h2 (String.append "Error: " (exn_msg e)), 500%Z)).

(** [whoop_callback] and [oura_callback]: one body, two providers. *)
Definition callback (provider label : string) (state : string) (error : option string)
    (exchange : http_outcome) (now : Z) : st auth_db (string * Z) :=
  if error_given error then
    st_ret (h2 (String.append label
                  (String.append " auth error: " (match error with Some e => e | None => "" end))),
            400%Z)
  else
    let* result := _pop_state state in
    match result with
    | Some (p, chat_id) =>
        if String.eqb p provider then exchange_and_save provider label chat_id exchange now
        else st_ret (h2 "Invalid state", 400%Z)
    | None => st_ret (h2 "Invalid state", 400%Z)
    end.

Definition whoop_callback := callback "whoop" "Whoop".
Definition oura_callback := callback "oura" "Oura".

(* ------------------------------------------------------------------ *)
(** ** clients/oura_client.py *)

(** [v[-1]] *)
Definition py_index_last (v : json) : res json :=
  match v with
  | JList l => match last l with
               | Some x => Ok x
               | None => Raise (Exn IndexError "list index out of range")
               end
  | JStr s => match String.length s with
              | O => Raise (Exn IndexError "string index out of range")
              | S n => Ok (JStr (String.substring n 1 s))
              end
  | JObj _ => Raise (Exn KeyError "-1")
  | _ => Raise (Exn TypeError "object is not subscriptable")
  end.

Section OuraClient.

(** The state the token lookup reads and may update. *)
Variable S : Type.
(** What [_headers] gets from its call of [get_valid_token]. *)
Variable valid_token : st S json.
(** The provider's answer to [GET base+path?params] sent with a token. *)
Variable net : json -> string -> dict -> http_outcome.
(** [_today()], that is [date.today().isoformat()] *)
Variable today : string.
(** [(date.today() - timedelta(days=n)).isoformat()] *)
Variable days_before : Z -> string.

Definition oura_headers : st S json :=
  let* token := valid_token in
  if truthy token then st_ret token
  else st_raise (Exn OuraAuthError "No valid Oura token. Run /connect_oura first.").

Definition oura_get (path : string) (params : dict) : st S json :=
  let* token := oura_headers in
  match net token path params with
  | Response 401 _ _ => st_raise (Exn OuraAuthError "Oura token expired or invalid.")
  | r => st_lift (raise_for_status_json r)
  end.

Definition _fetch_today (endpoint : string) (fallback_days : Z) : st S json :=
  st_try
    (let* data := oura_get endpoint [("start_date", JStr today); ("end_date", JStr today)] in
     let* items := st_lift (py_get data "data" (JList [])) in
     if truthy items then st_lift (py_index0 items)
     else if (0 <? fallback_days)%Z then
       let start := days_before fallback_days in
       let* data := oura_get endpoint [("start_date", JStr start); ("end_date", JStr today)] in
       let* items := st_lift (py_get data "data" (JList [])) in
       if truthy items then st_lift (py_index_last items) else st_ret JNull
     else st_ret JNull)
    (fun _ => st_ret JNull).

(** [round(d.get(k, 0) / 3600, 1) if d.get(k) is not None else None] *)
Definition seconds_to_hours (d : json) (k : string) : res json :=
  let! v := py_get d k JNull in
  match v with
  | JNull => Ok JNull
  | _ => let! x := py_get d k (JInt 0) in
         let! h := py_div_const x 3600 in
         py_round1_json h
  end.

(** The body of [get_all] after the five fetches, each already replaced
    by [{}] when falsy. *)
Definition oura_normalize (readiness sleep activity stress spo2 : json) : res dict :=
  let! spo2_pct := py_get spo2 "spo2_percentage" (JObj []) in
  let spo2_pct := py_or spo2_pct (JObj []) in
  let! readiness_score := py_get readiness "score" JNull in
  let! readiness_contributors := py_get readiness "contributors" JNull in
  let! readiness_level := py_get readiness "level" JNull in
  let! sleep_score := py_get sleep "score" JNull in
  let! sleep_contributors := py_get sleep "contributors" JNull in
  let! activity_score := py_get activity "score" JNull in
  let! activity_contributors := py_get activity "contributors" JNull in
  let! steps := py_get activity "steps" JNull in
  let! active_calories := py_get activity "active_calories" JNull in
  let! stress_high := seconds_to_hours stress "stress_high" in
  let! recovery_high := seconds_to_hours stress "recovery_high" in
  let! day_summary := py_get stress "day_summary" JNull in
  let! temperature_deviation := py_get readiness "temperature_deviation" JNull in
  let! temperature_trend_deviation := py_get readiness "temperature_trend_deviation" JNull in
  let! spo2_avg := py_get spo2_pct "average" JNull in
  Ok [("readiness_score", readiness_score); ("readiness_contributors", readiness_contributors);
      ("readiness_level", readiness_level); ("sleep_score", sleep_score);
      ("sleep_contributors", sleep_contributors); ("activity_score", activity_score);
      ("activity_contributors", activity_contributors); ("steps", steps);
      ("active_calories", active_calories); ("stress_high", stress_high);
      ("recovery_high", recovery_high); ("day_summary", day_summary);
      ("temperature_deviation", temperature_deviation);
      ("temperature_trend_deviation", temperature_trend_deviation); ("spo2_avg", spo2_avg);
      ("_raw", JObj [("readiness", readiness); ("sleep", sleep); ("activity", activity);
                     ("stress", stress); ("spo2", spo2)])].

Definition oura_get_all : st S dict :=
  let* readiness := _fetch_today "/daily_readiness" 0 in
  let* sleep := _fetch_today "/daily_sleep" 0 in
  let* activity := _fetch_today "/daily_activity" 2 in
  let* stress := _fetch_today "/daily_stress" 0 in
  let* spo2 := _fetch_today "/daily_spo2" 0 in
  st_lift (oura_normalize (py_or readiness (JObj [])) (py_or sleep (JObj []))
                          (py_or activity (JObj [])) (py_or stress (JObj []))
                          (py_or spo2 (JObj []))).

End OuraClient.

(** [OuraClient._headers] calls [get_valid_token("oura")], one argument
    short of the [(chat_id, provider)] the function takes: the call
    raises [TypeError] before any lookup. *)
Definition oura_token_call {S : Type} : st S json :=
  st_raise (Exn TypeError "get_valid_token() missing 1 required positional argument: 'provider'").

(* ------------------------------------------------------------------ *)
(** ** auth/flask_server.py: issuing the authorization URL *)

(** The constants of config.py. *)
Definition WHOOP_AUTH_URL : string := "https://api.prod.whoop.com/oauth/oauth2/auth".
Definition WHOOP_SCOPES : string :=
  "read:recovery read:sleep read:workout read:cycles read:profile read:body_measurement offline".
Definition OURA_AUTH_URL : string := "https://cloud.ouraring.com/oauth/authorize".
Definition OURA_SCOPES : string := "daily email personal heartrate workout tag session spo2".

(** [_save_state(state, provider, chat_id)]: a plain INSERT into a table
    whose primary key is [state]. *)
Definition _save_state (state provider : string) (chat_id : Z) : st auth_db unit :=
  fun db =>
    match oauth_states db !! state with
    | Some _ => (Raise (Exn IntegrityError "UNIQUE constraint failed: oauth_states.state"), db)
    | None => (Ok tt, {| oauth_states := <[state := (provider, chat_id)]> (oauth_states db);
                         oauth_tokens := oauth_tokens db |})
    end.

Section AuthUrl.

(** The settings config.py reads from the environment. *)
Variables WHOOP_CLIENT_ID OURA_CLIENT_ID OAUTH_REDIRECT_HOST : string.
(** [urllib.parse.urlencode] *)
Variable urlencode : list (string * string) -> string.

Definition OAUTH_REDIRECT_URI_WHOOP : string := String.append OAUTH_REDIRECT_HOST "/callback/whoop".
Definition OAUTH_REDIRECT_URI_OURA : string := String.append OAUTH_REDIRECT_HOST "/callback/oura".

(** [get_auth_url(chat_id, provider)]; [state] is the value
    [secrets.token_urlsafe(16)] returned. *)
Definition get_auth_url (state : string) (chat_id : Z) (provider : string) : st auth_db string :=
  let* _ := _save_state state provider chat_id in
  if String.eqb provider "whoop" then
    st_ret (String.append WHOOP_AUTH_URL (String.append "?"
              (urlencode [("client_id", WHOOP_CLIENT_ID);
                          ("redirect_uri", OAUTH_REDIRECT_URI_WHOOP);
                          ("response_type", "code"); ("scope", WHOOP_SCOPES);
                          ("state", state)])))
  else if String.eqb provider "oura" then
    st_ret (String.append OURA_AUTH_URL (String.append "?"
              (urlencode [("client_id", OURA_CLIENT_ID);
                          ("redirect_uri", OAUTH_REDIRECT_URI_OURA);
                          ("response_type", "code"); ("scope", OURA_SCOPES);
                          ("state", state)])))
  else st_raise (Exn ValueError (String.append "Unknown provider: " provider)).

End AuthUrl.

(* ------------------------------------------------------------------ *)
(** ** database/db.py: users and conversation history *)

(** [users]: [chat_id INTEGER PRIMARY KEY]. *)
Abbreviation users_table := (gset Z).

(** [INSERT OR IGNORE INTO users (chat_id) VALUES (?)] *)
Definition ensure_user (chat_id : Z) (users : users_table) : users_table := {[chat_id]} ∪ users.

(** [SELECT chat_id FROM users]: every registered chat once (the query
    fixes no order; the model takes that of [elements]). *)
Definition get_all_users (users : users_table) : list Z := elements users.

(** A row of [messages]. *)
Record message : Type := {
  m_id : Z;
  m_chat_id : Z;
  m_role : string;
  m_content : string;
  m_created_at : Z
}.

(** The rows of [messages] and its AUTOINCREMENT sequence. *)
Record messages_table : Type := { m_rows : list message; m_seq : Z }.

(** [save_message(chat_id, role, content)]; [now] is the time
    [strftime('%s', 'now')] gives the [created_at] default. *)
Definition save_message (chat_id : Z) (role content : string) (now : Z) (t : messages_table)
    : messages_table :=
  {| m_rows := m_rows t ++ [{| m_id := m_seq t + 1; m_chat_id := chat_id; m_role := role;
                               m_content := content; m_created_at := now |}];
     m_seq := m_seq t + 1 |}.

(** [ORDER BY created_at DESC, id DESC]: [a] comes before [b]. *)
Definition msg_before (a b : message) : bool :=
  (m_created_at b <? m_created_at a)%Z ||
  ((m_created_at a =? m_created_at b)%Z && (m_id b <? m_id a)%Z).

Fixpoint insert_by {A} (before : A -> A -> bool) (x : A) (l : list A) : list A :=
  match l with
  | [] => [x]
  | y :: l' => if before x y then x :: y :: l' else y :: insert_by before x l'
  end.

Fixpoint sort_by {A} (before : A -> A -> bool) (l : list A) : list A :=
  match l with
  | [] => []
  | x :: l' => insert_by before x (sort_by before l')
  end.

(** [LIMIT n]: SQLite reads a negative limit as no limit. *)
Definition sql_limit {A} (n : Z) (l : list A) : list A :=
  if (n <? 0)%Z then l else firstn (Z.to_nat n) l.

(** [get_recent_messages(chat_id, limit)] *)
Definition get_recent_messages (chat_id limit : Z) (t : messages_table) : list dict :=
  map (fun m => [("role", JStr (m_role m)); ("content", JStr (m_content m))])
      (rev (sql_limit limit
              (sort_by msg_before (List.filter (fun m => (m_chat_id m =? chat_id)%Z) (m_rows t))))).

(* ------------------------------------------------------------------ *)
(** ** utils/formatting.py *)







(* ------------------------------------------------------------------ *)
(** ** bot/scheduler.py and bot/bot.py *)

(** The messages delivered so far, in order. *)
Abbreviation sent_log := (list (Z * string)).

(** [morning_briefing], [evening_summary] and [aggregate] take no
    argument and [ask_health_assistant] takes one; the scheduler and the
    bot call them with one more, which raises [TypeError]. *)
Definition morning_briefing_call (chat_id : Z) {S A : Type} : st S A :=
  st_raise (Exn TypeError "morning_briefing() takes 0 positional arguments but 1 was given").
Definition evening_summary_call (chat_id : Z) {S A : Type} : st S A :=
  st_raise (Exn TypeError "evening_summary() takes 0 positional arguments but 1 was given").
Definition aggregate_call (chat_id : Z) {S A : Type} : st S A :=
  st_raise (Exn TypeError "aggregate() takes 0 positional arguments but 1 was given").
Definition ask_health_assistant_call (chat_id : Z) (question : string) {S A : Type} : st S A :=
  st_raise (Exn TypeError "ask_health_assistant() takes 1 positional argument but 2 were given").

(** [for chat_id in get_all_users(): try: body(chat_id) except Exception: log] *)
Fixpoint for_each_user {L : Type} (chats : list Z) (body : Z -> st L unit) : st L unit :=
  match chats with
  | [] => st_ret tt
  | c :: cs => let* _ := st_try (body c) (fun _ => st_ret tt) in for_each_user cs body
  end.

Section Scheduler.

(** [_send_telegram(chat_id, text)]: [None] when the message is
    delivered, the exception otherwise. *)
Variable send : Z -> string -> option exn.

Definition _send_telegram (chat_id : Z) (text : string) : st sent_log unit :=
  fun log => match send chat_id text with
             | None => (Ok tt, log ++ [(chat_id, text)])
             | Some e => (Raise e, log)
             end.

Definition reminder_text : string := "💊 Не забудь выпить магний!".

Definition _job_morning_briefing (users : users_table) : st sent_log unit :=
  for_each_user (get_all_users users)
    (fun c => let* text := morning_briefing_call c in _send_telegram c text).

Definition _job_evening_reminder (users : users_table) : st sent_log unit :=
  for_each_user (get_all_users users) (fun c => _send_telegram c reminder_text).

Definition _job_evening_summary (users : users_table) : st sent_log unit :=
  for_each_user (get_all_users users)
    (fun c => let* text := evening_summary_call c in _send_telegram c text).

End Scheduler.

Section Bot.

(** [format_health_summary] (not reached: the call before it raises). *)
Variable format_health_summary : json -> string.

(** What each handler leaves in the message it edits, after
    [ensure_user(chat_id)]. *)
Definition cmd_health (chat_id : Z) : st users_table string :=
  fun users =>
    st_try (let* data := aggregate_call chat_id in st_ret (format_health_summary data))
           (fun e => st_ret (String.append "❌ Error: " (exn_msg e)))
           (ensure_user chat_id users).

Definition cmd_morning (chat_id : Z) : st users_table string :=
  fun users =>
    st_try (morning_briefing_call chat_id)
           (fun e => st_ret (String.append "❌ Ошибка: " (exn_msg e)))
           (ensure_user chat_id users).

Definition cmd_evening (chat_id : Z) : st users_table string :=
  fun users =>
    st_try (evening_summary_call chat_id)
           (fun e => st_ret (String.append "❌ Ошибка: " (exn_msg e)))
           (ensure_user chat_id users).

Definition handle_message (chat_id : Z) (question : string) : st users_table string :=
  fun users =>
    st_try (ask_health_assistant_call chat_id question)
           (fun e => st_ret (String.append "❌ Ошибка: " (exn_msg e)))
           (ensure_user chat_id users).

End Bot.

(* ================================================================== *)
(** * Properties *)

From Stdlib Require Import Lqa.

(** ** Rounding *)











Lemma py_max_Qmax a b : py_max a b == Qmax a b.
Proof.
  unfold py_max, Qmax, GenericMinMax.gmax.
  destruct (Qlt_le_dec a b); destruct (Qcompare_spec a b); try reflexivity; lra.
Qed.





(** ** Scoring *)




(** ** The Whoop client never lets [WhoopAuthError] out of [get_all] *)

Definition not_auth {A} (r : res A) : Prop :=
  match r with Raise e => exn_kind_of e <> WhoopAuthError | Ok _ => True end.

Lemma not_auth_bind {A B} (m : res A) (k : A -> res B) :
  not_auth m -> (forall a, not_auth (k a)) -> not_auth (res_bind m k).
Proof. destruct m; simpl; auto. Qed.

Ltac noauth_cases :=
  repeat match goal with
  | |- context [match ?x with _ => _ end] => destruct x
  end; simpl; first [exact I | discriminate].

Lemma py_get_not_auth v k d : not_auth (py_get v k d).
Proof. unfold py_get. noauth_cases. Qed.

Lemma py_add_not_auth a b : not_auth (py_add a b).
Proof. unfold py_add. noauth_cases. Qed.

Lemma py_div_const_not_auth a n : not_auth (py_div_const a n).
Proof. unfold py_div_const. noauth_cases. Qed.

Lemma py_round1_json_not_auth a : not_auth (py_round1_json a).
Proof. unfold py_round1_json. noauth_cases. Qed.

Lemma stage_minutes_not_auth x : not_auth (stage_minutes x).
Proof.
  unfold stage_minutes. apply not_auth_bind; [apply py_div_const_not_auth | intros].
  apply not_auth_bind; [apply py_round1_json_not_auth | intros; exact I].
Qed.

Lemma total_minutes_not_auth x : not_auth (total_minutes x).
Proof.
  unfold total_minutes. destruct (truthy x); [| exact I].
  apply not_auth_bind; [apply py_div_const_not_auth | intros; apply py_round1_json_not_auth].
Qed.

Create HintDb noauth.
#[local] Hint Resolve py_get_not_auth py_add_not_auth stage_minutes_not_auth
  total_minutes_not_auth : noauth.

Lemma whoop_normalize_not_auth r sl w : not_auth (whoop_normalize r sl w).
Proof.
  unfold whoop_normalize.
  repeat (cbv zeta; apply not_auth_bind; [eauto with noauth | intros ?]).
  exact I.
Qed.

Lemma st_try_handled {S A} (m : st S A) (v : A) s :
  exists a s', st_try m (fun _ => st_ret v) s = (Ok a, s').
Proof. unfold st_try. destruct (m s) as [[a|e] s']; eauto. Qed.


(** ** Token store and state store *)

Ltac unbind H :=
  repeat lazymatch type of H with
  | res_bind ?m _ = _ =>
      let E := fresh "E" in
      destruct m eqn:E; cbn [res_bind] in H; [| discriminate H]
  end.

Lemma token_params_spec td now r :
  token_params td now = Ok r ->
  exists d, td = JObj d /\
    (exists a, dict_lookup d "access_token" = Some a /\ bind_param a = Ok (tr_access_token r) /\
               tr_access_token r <> SNull) /\
    bind_param (dict_get d "refresh_token") = Ok (tr_refresh_token r) /\
    (exists x, py_add (JInt now) (dict_get_or d "expires_in" (JInt 3600)) = Ok x /\
               bind_param x = Ok (tr_expires_at r)) /\
    tr_updated_at r = now.
Proof.
  unfold token_params. intros H.
  destruct td as [| | | | | | d]; cbn [py_get res_bind] in H; try discriminate H.
  unbind H.
  rename a into x, a0 into acc, a1 into sa, a2 into sr, a3 into se.
  cbn [py_getitem] in E0.
  destruct (dict_lookup d "access_token") as [acc'|] eqn:Ea; [| discriminate E0].
  injection E0 as ->.
  destruct sa; [discriminate H | ..]; injection H as <-;
    cbn [tr_access_token tr_refresh_token tr_expires_at tr_updated_at];
    (exists d; split; [reflexivity |]);
    (split; [exists acc; split; [exact Ea | split; [exact E1 | discriminate]] |]);
    (split; [exact E2 |]); (split; [eexists; split; eassumption | reflexivity]).
Qed.

Lemma raise_for_status_ok r j :
  raise_for_status_json r = Ok j -> exists status txt, r = Response status txt (Some j).
Proof.
  destruct r as [msg | status txt [b|]]; cbn; [discriminate | |];
    destruct (400 <=? status)%Z; try discriminate; intros H; injection H as <-; eauto.
Qed.

Lemma refresh_token_cases chat prov resp now db :
  refresh_token chat prov resp now db = (Ok JNull, db) \/
  exists status txt d r v,
    resp = Response status txt (Some (JObj d)) /\
    token_params (JObj d) now = Ok r /\
    dict_lookup d "access_token" = Some v /\
    refresh_token chat prov resp now db =
      (Ok v, {| oauth_states := oauth_states db;
                oauth_tokens := <[(chat, prov) := r]> (oauth_tokens db) |}).
Proof.
  unfold refresh_token.
  destruct (oauth_tokens db !! (chat, prov)) as [row|]; [| left; reflexivity].
  destruct (negb (truthy (sql_to_py (tr_refresh_token row)))); [left; reflexivity |].
  unfold st_try, st_bind, st_lift, st_ret.
  destruct (known_provider prov); [| left; reflexivity].
  destruct (raise_for_status_json resp) as [j|e] eqn:Er; [| left; reflexivity].
  unfold _save_token.
  destruct (token_params j now) as [r|e] eqn:Et; [| left; reflexivity].
  destruct (token_params_spec _ _ _ Et) as (d & -> & (a & Ea & _) & _).
  cbn [py_getitem]. rewrite Ea.
  right. destruct (raise_for_status_ok _ _ Er) as (status & txt & ->).
  exists status, txt, d, r, a. repeat split; assumption.
Qed.

Lemma save_token_states c p td now db :
  oauth_states (snd (_save_token c p td now db)) = oauth_states db.
Proof. unfold _save_token. destruct (token_params td now); reflexivity. Qed.

Lemma exchange_and_save_states p l c ex now db :
  oauth_states (snd (exchange_and_save p l c ex now db)) = oauth_states db.
Proof.
  unfold exchange_and_save, st_try, st_bind, st_lift, st_ret.
  destruct (raise_for_status_json ex) as [j|e]; [| reflexivity].
  unfold _save_token. destruct (token_params j now); reflexivity.
Qed.

Lemma callback_pops prov label state err ex now db :
  error_given err = false ->
  oauth_states (snd (callback prov label state err ex now db)) !! state = None.
Proof.
  intros H. unfold callback. rewrite H. unfold st_bind, _pop_state.
  destruct (oauth_states db !! state) as [[p c]|] eqn:E; cbn.
  - destruct (String.eqb p prov); cbn.
    + rewrite exchange_and_save_states. cbn. apply lookup_delete_eq.
    + apply lookup_delete_eq.
  - exact E.
Qed.


(* ================================================================== *)
(** * Claims *)





(** C3: when both provider fetches raise, [aggregate] does not raise: it
    returns the date, two empty provider records, no composite recovery,
    no training readiness and one error string per provider, and the
    metrics tables are left as they were. *)
Theorem aggregate_both_fetches_fail (fos : string -> option Q) (dumps : json -> string)
    (today : string) (now : Z) (e1 e2 : exn) (db : metrics_db) :
  aggregate_with fos dumps today now (Raise e1) (Raise e2) db =
  (Ok {| r_date := today; r_whoop := []; r_oura := [];
         r_composite_recovery := None; r_training_readiness := None;
         r_errors :=
           [if decide (exn_kind_of e1 = WhoopAuthError)
            then String.append "Whoop: " (exn_msg e1)
            else String.append "Whoop error: " (exn_msg e1);
            if decide (exn_kind_of e2 = OuraAuthError)
            then String.append "Oura: " (exn_msg e2)
            else String.append "Oura error: " (exn_msg e2)] |}, db).
Proof. reflexivity. Qed.

(** C4 (code defect): the three upserts name [ON CONFLICT(date)] while
    the tables are keyed [UNIQUE(chat_id, date)], so SQLite rejects every
    one of them and no row is ever stored; an aggregation run with Whoop
    data, repeated, raises each time and leaves the tables as they were. *)
Theorem metrics_upserts_rejected (fos : string -> option Q) (dumps : json -> string) (now : Z)
    (today : string) (w o : dict) (composite training : option Q) (t : table)
    (e : exn) (db : metrics_db) :
  _save_whoop fos dumps now today w t =
    Raise (Exn OperationalError
             "ON CONFLICT clause does not match any PRIMARY KEY or UNIQUE constraint") /\
  _save_oura fos dumps now today o t =
    Raise (Exn OperationalError
             "ON CONFLICT clause does not match any PRIMARY KEY or UNIQUE constraint") /\
  _save_daily_scores now today composite training t =
    Raise (Exn OperationalError
             "ON CONFLICT clause does not match any PRIMARY KEY or UNIQUE constraint") /\
  (let run := aggregate_with fos dumps "2026-10-17" now
                (Ok [("recovery_score", JInt 70)]) (Raise e) in
   run db = (Raise (Exn OperationalError
                      "ON CONFLICT clause does not match any PRIMARY KEY or UNIQUE constraint"), db) /\
   run (snd (run db)) = run db).
Proof. repeat split; reflexivity. Qed.

(** C8 (code defect): [WhoopClient.get_all] never raises
    [WhoopAuthError], whatever the token lookup and the provider answer:
    the error raised by [_headers] or on HTTP 401 is caught by the
    [except Exception] of [_latest] and [get_workout]. With no token on
    file it returns a record whose metric fields are all [None]. *)
Theorem whoop_get_all_swallows_auth_error (S : Type) (valid_token : st S json)
    (net : json -> string -> dict -> http_outcome) (window : string * string) (s : S) :
  not_auth (fst (whoop_get_all S valid_token net window s)) /\
  exists d, whoop_get_all unit (st_ret JNull) net window tt = (Ok d, tt) /\
            dict_get d "recovery_score" = JNull /\ dict_get d "spo2" = JNull /\
            dict_get d "sleep_duration_min" = JNull /\ dict_get d "workout_strain" = JNull.
Proof.
  split.
  - unfold whoop_get_all, whoop_get_recovery, whoop_get_sleep, whoop_latest, st_bind.
    unfold whoop_get_workout.
    repeat match goal with
    | |- context [st_try ?m (fun _ => st_ret JNull) ?s0] =>
        let E := fresh "E" in
        destruct (st_try_handled m JNull s0) as (? & ? & E); rewrite E
    end.
    apply whoop_normalize_not_auth.
  - eexists. split; [reflexivity |]. repeat split; reflexivity.
Qed.

(** C5: a callback that gets past the [error] check removes the state
    from the state store whatever the code exchange then does, so any
    later callback (either provider) with the same state is answered
    "Invalid state" (400) without an exchange and without touching the
    stores. *)
Theorem callback_state_single_use (prov label prov' label' state : string)
    (err1 err2 : option string) (ex1 ex2 : http_outcome) (now1 now2 : Z) (db : auth_db) :
  error_given err1 = false -> error_given err2 = false ->
  let db1 := snd (callback prov label state err1 ex1 now1 db) in
  oauth_states db1 !! state = None /\
  callback prov' label' state err2 ex2 now2 db1 = (Ok (h2 "Invalid state", 400%Z), db1).
Proof.
  intros H1 H2 db1.
  assert (Hs : oauth_states db1 !! state = None) by (apply callback_pops; exact H1).
  split; [exact Hs |].
  unfold callback. rewrite H2. unfold st_bind, _pop_state. rewrite Hs. reflexivity.
Qed.



(** C7 (as stated, refuted): a refresh answered without a
    [refresh_token] succeeds and stores NULL over the previous refresh
    token "r0". *)
Lemma refresh_keeps_old_refresh_token_cex :
  let row := {| tr_access_token := SText "a0"; tr_refresh_token := SText "r0";
                tr_expires_at := SInt 100; tr_updated_at := 0%Z |} in
  let db := {| oauth_states := ∅; oauth_tokens := {[(1%Z, "whoop") := row]} |} in
  let resp := Response 200 "" (Some (JObj [("access_token", JStr "a1");
                                           ("expires_in", JInt 3600)])) in
  exists db',
    refresh_token 1 "whoop" resp 1000 db = (Ok (JStr "a1"), db') /\
    option_map tr_refresh_token (oauth_tokens db' !! (1%Z, "whoop")) = Some SNull /\
    option_map tr_access_token (oauth_tokens db' !! (1%Z, "whoop")) = Some (SText "a1") /\
    option_map tr_expires_at (oauth_tokens db' !! (1%Z, "whoop")) = Some (SInt 4600).
Proof. eexists. split; [vm_compute; reflexivity |]. vm_compute. repeat split. Qed.

(** C7 (amended): a refresh that returns a token has written the
    provider's answer over the whole record: [access_token] and
    [expires_at] take the new values and [refresh_token] takes the
    answer's [refresh_token], NULL when the answer has none; the state
    store and the other records are untouched. *)
Theorem refresh_success_overwrites_record (chat : Z) (prov : string) (resp : http_outcome)
    (now : Z) (db db' : auth_db) (v : json) :
  refresh_token chat prov resp now db = (Ok v, db') -> v <> JNull ->
  exists status txt d r,
    resp = Response status txt (Some (JObj d)) /\
    oauth_tokens db' = <[(chat, prov) := r]> (oauth_tokens db) /\
    oauth_states db' = oauth_states db /\
    dict_lookup d "access_token" = Some v /\ bind_param v = Ok (tr_access_token r) /\
    bind_param (dict_get d "refresh_token") = Ok (tr_refresh_token r) /\
    (dict_lookup d "refresh_token" = None -> tr_refresh_token r = SNull) /\
    (exists x, py_add (JInt now) (dict_get_or d "expires_in" (JInt 3600)) = Ok x /\
               bind_param x = Ok (tr_expires_at r)).
Proof.
  intros H Hv.
  destruct (refresh_token_cases chat prov resp now db)
    as [E | (status & txt & d & r & a & Er & Et & Ea & E)]; rewrite E in H.
  - injection H as <- _. contradiction.
  - injection H as <- <-.
    destruct (token_params_spec _ _ _ Et) as (d' & Ed & (a' & Ea' & Ba & _) & Br & Bx & _).
    injection Ed as <-. rewrite Ea in Ea'. injection Ea' as <-.
    exists status, txt, d, r. repeat split; try assumption.
    intros Hn. unfold dict_get, dict_get_or in Br. rewrite Hn in Br.
    injection Br as <-. reflexivity.
Qed.



(** A run of C5: state "s1" was issued for chat 1 and Whoop; the first
    callback exchanges the code, the replay is refused. *)
Lemma callback_state_single_use_witness :
  error_given None = false /\
  let db := {| oauth_states := {["s1" := ("whoop", 1%Z)]}; oauth_tokens := ∅ |} in
  let ex := Response 200 EmptyString (Some (JObj [("access_token", JStr "a")])) in
  let db1 := snd (whoop_callback "s1" None ex 10 db) in
  oauth_states db1 !! "s1" = None /\
  oura_callback "s1" None ex 20 db1 = (Ok (h2 "Invalid state", 400%Z), db1).
Proof.
  assert (H : error_given None = false) by reflexivity.
  split; [exact H |].
  exact (callback_state_single_use "whoop" "Whoop" "oura" "Oura" "s1" None None
           (Response 200 EmptyString (Some (JObj [("access_token", JStr "a")])))
           (Response 200 EmptyString (Some (JObj [("access_token", JStr "a")])))
           10 20 {| oauth_states := {["s1" := ("whoop", 1%Z)]}; oauth_tokens := ∅ |}
           H H).
Defined.

(** A run of the amended C7: a refresh answered without a
    [refresh_token] overwrites the record with a NULL one. *)
Lemma refresh_success_overwrites_record_witness :
  let row := {| tr_access_token := SText "a0"; tr_refresh_token := SText "r0";
                tr_expires_at := SInt 100; tr_updated_at := 0%Z |} in
  let row' := {| tr_access_token := SText "a1"; tr_refresh_token := SNull;
                 tr_expires_at := SInt 4600; tr_updated_at := 1000%Z |} in
  let db := {| oauth_states := ∅; oauth_tokens := {[(1%Z, "whoop") := row]} |} in
  let db' := {| oauth_states := ∅; oauth_tokens := {[(1%Z, "whoop") := row']} |} in
  let resp := Response 200 EmptyString (Some (JObj [("access_token", JStr "a1");
                                                    ("expires_in", JInt 3600)])) in
  refresh_token 1 "whoop" resp 1000 db = (Ok (JStr "a1"), db') /\
  exists status txt d r,
    resp = Response status txt (Some (JObj d)) /\
    oauth_tokens db' = <[(1%Z, "whoop") := r]> (oauth_tokens db) /\
    oauth_states db' = oauth_states db /\
    dict_lookup d "access_token" = Some (JStr "a1") /\
    bind_param (JStr "a1") = Ok (tr_access_token r) /\
    bind_param (dict_get d "refresh_token") = Ok (tr_refresh_token r) /\
    (dict_lookup d "refresh_token" = None -> tr_refresh_token r = SNull) /\
    (exists x, py_add (JInt 1000) (dict_get_or d "expires_in" (JInt 3600)) = Ok x /\
               bind_param x = Ok (tr_expires_at r)).
Proof.
  intros row row' db db' resp.
  assert (H : refresh_token 1 "whoop" resp 1000 db = (Ok (JStr "a1"), db'))
    by (vm_compute; reflexivity).
  split; [exact H |].
  exact (refresh_success_overwrites_record 1 "whoop" resp 1000 db db' (JStr "a1") H
           ltac:(discriminate)).
Defined.

(* ================================================================== *)
(** * Further properties of the code *)

(** ** The Oura client *)

Definition not_oura_auth {A} (r : res A) : Prop :=
  match r with Raise e => exn_kind_of e <> OuraAuthError | Ok _ => True end.

Lemma not_oura_auth_bind {A B} (m : res A) (k : A -> res B) :
  not_oura_auth m -> (forall a, not_oura_auth (k a)) -> not_oura_auth (res_bind m k).
Proof. destruct m; simpl; auto. Qed.

Lemma py_get_not_oura_auth v k d : not_oura_auth (py_get v k d).
Proof. unfold py_get. noauth_cases. Qed.

Lemma seconds_to_hours_not_oura_auth d k : not_oura_auth (seconds_to_hours d k).
Proof.
  unfold seconds_to_hours. apply not_oura_auth_bind; [apply py_get_not_oura_auth | intros v].
  destruct v; try exact I;
    (apply not_oura_auth_bind; [apply py_get_not_oura_auth | intros x]);
    (apply not_oura_auth_bind; [unfold py_div_const; noauth_cases | intros h]);
    unfold py_round1_json; noauth_cases.
Qed.

Create HintDb nooura.
#[local] Hint Resolve py_get_not_oura_auth seconds_to_hours_not_oura_auth : nooura.

Lemma oura_normalize_not_oura_auth a b c d e : not_oura_auth (oura_normalize a b c d e).
Proof.
  unfold oura_normalize.
  repeat (cbv zeta; apply not_oura_auth_bind; [eauto with nooura | intros ?]).
  exact I.
Qed.


(** [OuraClient.get_all] never raises [OuraAuthError], whatever the token
    lookup gives and whatever the provider answers: every fetch is
    wrapped in an [except Exception] that turns the error into [None]. *)
Theorem oura_get_all_never_auth_error (S : Type) (valid_token : st S json)
    (net : json -> string -> dict -> http_outcome) (today : string)
    (days_before : Z -> string) (s : S) :
  not_oura_auth (fst (oura_get_all S valid_token net today days_before s)).
Proof.
  unfold oura_get_all, st_bind, _fetch_today.
  repeat match goal with
  | |- context [st_try ?m (fun _ => st_ret JNull) ?s0] =>
      let E := fresh "E" in
      destruct (st_try_handled m JNull s0) as (? & ? & E); rewrite E
  end.
  apply oura_normalize_not_oura_auth.
Qed.

(** [OuraClient().get_all()] as written: [_headers] calls
    [get_valid_token] with one argument, the [TypeError] is swallowed by
    [_fetch_today], so no request is sent (the result does not depend on
    the network), the state is untouched and every field of the record
    is [None]. *)
Theorem oura_get_all_as_written (S : Type) (net : json -> string -> dict -> http_outcome)
    (today : string) (days_before : Z -> string) (s : S) :
  oura_get_all S oura_token_call net today days_before s =
  (Ok [("readiness_score", JNull); ("readiness_contributors", JNull);
       ("readiness_level", JNull); ("sleep_score", JNull); ("sleep_contributors", JNull);
       ("activity_score", JNull); ("activity_contributors", JNull); ("steps", JNull);
       ("active_calories", JNull); ("stress_high", JNull); ("recovery_high", JNull);
       ("day_summary", JNull); ("temperature_deviation", JNull);
       ("temperature_trend_deviation", JNull); ("spo2_avg", JNull);
       ("_raw", JObj [("readiness", JObj []); ("sleep", JObj []); ("activity", JObj []);
                      ("stress", JObj []); ("spo2", JObj [])])], s).
Proof. reflexivity. Qed.

(** [aggregate()] as written: the Whoop fetch raises [TypeError] (the
    constructor misses its [chat_id]) and the Oura fetch returns the
    all-[None] record, so every run returns no composite recovery, no
    training readiness, one error string (for Whoop) and writes no row. *)
Theorem aggregate_as_written (fos : string -> option Q) (dumps : json -> string)
    (today : string) (now : Z) (S : Type) (net : json -> string -> dict -> http_outcome)
    (oura_today : string) (days_before : Z -> string) (s : S) (db : metrics_db) :
  let oura_fetch := fst (oura_get_all S oura_token_call net oura_today days_before s) in
  exists oura,
    oura_fetch = Ok oura /\
    aggregate fos dumps today now oura_fetch db =
    (Ok {| r_date := today; r_whoop := []; r_oura := oura;
           r_composite_recovery := None; r_training_readiness := None;
           r_errors := ["Whoop error: WhoopClient.__init__() missing 1 required positional argument: 'chat_id'"] |},
     db) /\
    Forall (fun '(k, v) => String.prefix "_" k = true \/ v = JNull) oura.
Proof.
  cbv zeta. eexists. split; [reflexivity |]. split; [reflexivity |].
  repeat (apply List.Forall_cons; [cbn; first [right; reflexivity | left; reflexivity] |]).
  apply List.Forall_nil.
Qed.


(** ** The Whoop client's fallback query *)

(** [_latest] asks for the records of the window first; only when that
    answer has no record does it send the query without a window, and
    then it returns that query's first record, or [None] when it has
    none either. *)
Theorem whoop_latest_fallback (S : Type) (valid_token : st S json)
    (net : json -> string -> dict -> http_outcome) (window : string * string)
    (endpoint : string) (s : S) (d1 : dict) :
  whoop_get S valid_token net endpoint
    [("start", JStr (fst window)); ("end", JStr (snd window)); ("limit", JInt 1)] s
    = (Ok (JObj d1), s) ->
  (forall x xs, dict_get_or d1 "records" (JList []) = JList (x :: xs) ->
     whoop_latest S valid_token net window endpoint s = (Ok x, s)) /\
  (dict_get_or d1 "records" (JList []) = JList [] ->
   forall d2,
     whoop_get S valid_token net endpoint [("limit", JInt 1)] s = (Ok (JObj d2), s) ->
     (forall x xs, dict_get_or d2 "records" (JList []) = JList (x :: xs) ->
        whoop_latest S valid_token net window endpoint s = (Ok x, s)) /\
     (dict_get_or d2 "records" (JList []) = JList [] ->
        whoop_latest S valid_token net window endpoint s = (Ok JNull, s))).
Proof.
  intros H1. unfold whoop_latest, st_try, st_bind, st_lift, st_ret.
  rewrite H1. cbn [py_get]. split.
  - intros x xs Hd. rewrite Hd. reflexivity.
  - intros Hd d2 H2. rewrite Hd. cbn [truthy length Nat.eqb negb]. rewrite H2.
    cbn [py_get]. split.
    + intros x xs Hd2. rewrite Hd2. reflexivity.
    + intros Hd2. rewrite Hd2. reflexivity.
Qed.

(** ** The OAuth callbacks *)

Lemma callback_found prov label state err ex now db chat :
  error_given err = false ->
  oauth_states db !! state = Some (prov, chat) ->
  callback prov label state err ex now db =
  exchange_and_save prov label chat ex now
    {| oauth_states := delete state (oauth_states db); oauth_tokens := oauth_tokens db |}.
Proof.
  intros He Hs. unfold callback. rewrite He. unfold st_bind, _pop_state. rewrite Hs.
  rewrite String.eqb_refl. reflexivity.
Qed.

Lemma exchange_and_save_ok prov label chat ex now db td r :
  raise_for_status_json ex = Ok td -> token_params td now = Ok r ->
  exchange_and_save prov label chat ex now db =
  (Ok (h2 (String.append label " connected! You can close this tab."), 200%Z),
   {| oauth_states := oauth_states db; oauth_tokens := <[(chat, prov) := r]> (oauth_tokens db) |}).
Proof.
  intros H1 H2. unfold exchange_and_save, st_try, st_bind, st_lift, st_ret.
  rewrite H1. unfold _save_token. rewrite H2. reflexivity.
Qed.


(** Issuing the authorization URL and completing the callback compose:
    for a fresh state and a known provider, [get_auth_url] records
    [(provider, chat_id)] under the state, and a callback for that
    provider whose code exchange yields usable token data stores the
    token for that chat, consumes the state (the state store is back to
    what it was) and answers 200. *)
Theorem auth_url_then_callback (WHOOP_CLIENT_ID OURA_CLIENT_ID OAUTH_REDIRECT_HOST : string)
    (urlencode : list (string * string) -> string) (state : string) (chat : Z)
    (prov label : string) (ex : http_outcome) (now : Z) (db : auth_db) (td : json)
    (r : token_row) :
  oauth_states db !! state = None ->
  prov = "whoop" \/ prov = "oura" ->
  raise_for_status_json ex = Ok td -> token_params td now = Ok r ->
  let db1 := {| oauth_states := <[state := (prov, chat)]> (oauth_states db);
                oauth_tokens := oauth_tokens db |} in
  (exists url, get_auth_url WHOOP_CLIENT_ID OURA_CLIENT_ID OAUTH_REDIRECT_HOST urlencode
                 state chat prov db = (Ok url, db1)) /\
  callback prov label state None ex now db1 =
  (Ok (h2 (String.append label " connected! You can close this tab."), 200%Z),
   {| oauth_states := oauth_states db; oauth_tokens := <[(chat, prov) := r]> (oauth_tokens db) |}).
Proof.
  intros Hs Hp H1 H2. cbv zeta. split.
  - unfold get_auth_url, st_bind, _save_state. rewrite Hs.
    destruct Hp as [-> | ->]; eexists; reflexivity.
  - rewrite (callback_found prov label state None ex now _ chat eq_refl
               (lookup_insert_eq _ _ _)).
    rewrite (exchange_and_save_ok _ _ _ _ _ _ _ _ H1 H2). cbn [oauth_states oauth_tokens].
    rewrite delete_insert_id by exact Hs. reflexivity.
Qed.

(** [get_auth_url] with an unknown provider raises [ValueError], but
    only after [_save_state] has committed the state; a later callback
    (of another provider) presenting that state answers "Invalid state"
    with 400 and deletes it, which restores the state store. *)
Theorem auth_url_unknown_provider (WHOOP_CLIENT_ID OURA_CLIENT_ID OAUTH_REDIRECT_HOST : string)
    (urlencode : list (string * string) -> string) (state : string) (chat : Z)
    (prov : string) (db : auth_db) :
  String.eqb prov "whoop" = false -> String.eqb prov "oura" = false ->
  oauth_states db !! state = None ->
  let db1 := {| oauth_states := <[state := (prov, chat)]> (oauth_states db);
                oauth_tokens := oauth_tokens db |} in
  get_auth_url WHOOP_CLIENT_ID OURA_CLIENT_ID OAUTH_REDIRECT_HOST urlencode state chat prov db =
    (Raise (Exn ValueError (String.append "Unknown provider: " prov)), db1) /\
  forall p' label' err ex now,
    error_given err = false -> prov <> p' ->
    callback p' label' state err ex now db1 = (Ok (h2 "Invalid state", 400%Z), db).
Proof.
  intros Hw Ho Hs. cbv zeta. split.
  - unfold get_auth_url, st_bind, _save_state. rewrite Hs. cbn. rewrite Hw, Ho. reflexivity.
  - intros p' label' err ex now He Hne. unfold callback. rewrite He.
    unfold st_bind, _pop_state. cbn [oauth_states]. rewrite lookup_insert_eq.
    replace (String.eqb prov p') with false by (symmetry; apply String.eqb_neq; exact Hne).
    unfold st_ret. cbn. rewrite delete_insert_id by exact Hs. destruct db; reflexivity.
Qed.

(** A callback carrying an [error] answers 400 and changes nothing, so
    the state it names is not consumed: a later callback with the same
    state and a code whose exchange succeeds still connects the chat. *)
Theorem callback_error_keeps_state (prov label state e : string) (ex ex' : http_outcome)
    (now now' : Z) (chat : Z) (db : auth_db) (td : json) (r : token_row) :
  e <> "" ->
  oauth_states db !! state = Some (prov, chat) ->
  raise_for_status_json ex' = Ok td -> token_params td now' = Ok r ->
  callback prov label state (Some e) ex now db =
    (Ok (h2 (String.append label (String.append " auth error: " e)), 400%Z), db) /\
  callback prov label state None ex' now' db =
    (Ok (h2 (String.append label " connected! You can close this tab."), 200%Z),
     {| oauth_states := delete state (oauth_states db);
        oauth_tokens := <[(chat, prov) := r]> (oauth_tokens db) |}).
Proof.
  intros He Hs H1 H2. split.
  - unfold callback, error_given.
    replace (String.eqb e "") with false by (symmetry; apply String.eqb_neq; exact He).
    reflexivity.
  - rewrite (callback_found prov label state None ex' now' db chat eq_refl Hs).
    rewrite (exchange_and_save_ok _ _ _ _ _ _ _ _ H1 H2). reflexivity.
Qed.


(** A state issued for one provider and presented to the other
    provider's callback is answered "Invalid state" (400) without any
    exchange, and is consumed: it can no longer complete the flow it was
    issued for. *)
Theorem callback_provider_mismatch (prov label state p : string) (err : option string)
    (ex : http_outcome) (now chat : Z) (db : auth_db) :
  error_given err = false ->
  oauth_states db !! state = Some (p, chat) -> p <> prov ->
  callback prov label state err ex now db =
    (Ok (h2 "Invalid state", 400%Z),
     {| oauth_states := delete state (oauth_states db); oauth_tokens := oauth_tokens db |}) /\
  forall ex' now',
    callback p label state err ex' now'
      {| oauth_states := delete state (oauth_states db); oauth_tokens := oauth_tokens db |} =
    (Ok (h2 "Invalid state", 400%Z),
     {| oauth_states := delete state (oauth_states db); oauth_tokens := oauth_tokens db |}).
Proof.
  intros He Hs Hne. split.
  - unfold callback. rewrite He. unfold st_bind, _pop_state. rewrite Hs.
    replace (String.eqb p prov) with false by (symmetry; apply String.eqb_neq; exact Hne).
    reflexivity.
  - intros ex' now'. unfold callback. rewrite He. unfold st_bind, _pop_state.
    cbn [oauth_states]. rewrite lookup_delete_eq. reflexivity.
Qed.

(** ** Token lookup near expiry *)


(** ** Storing a token *)


(** ** Conversation history *)

Lemma insert_by_perm {A} (b : A -> A -> bool) x l : Permutation (insert_by b x l) (x :: l).
Proof.
  induction l as [| y l IH]; cbn; [reflexivity |].
  destruct (b x y); [reflexivity |].
  rewrite IH. apply perm_swap.
Qed.

Lemma sort_by_perm {A} (b : A -> A -> bool) l : Permutation (sort_by b l) l.
Proof.
  induction l as [| x l IH]; cbn; [reflexivity |].
  rewrite insert_by_perm, IH. reflexivity.
Qed.

Lemma sql_limit_incl {A} n (l : list A) x : In x (sql_limit n l) -> In x l.
Proof.
  unfold sql_limit. destruct (n <? 0)%Z; [auto |].
  generalize (Z.to_nat n). induction l as [| y l IH]; intros [| k]; cbn; try tauto.
  intros [-> | H]; [left; reflexivity | right; exact (IH k H)].
Qed.

Lemma sql_limit_length {A} n (l : list A) :
  length (sql_limit n l) = if (n <? 0)%Z then length l else Nat.min (Z.to_nat n) (length l).
Proof. unfold sql_limit. destruct (n <? 0)%Z; [reflexivity | apply length_firstn]. Qed.

Lemma sort_by_snoc {A} (b : A -> A -> bool) l m :
  (forall x, In x l -> b x m = false) -> sort_by b (l ++ [m]) = m :: sort_by b l.
Proof.
  induction l as [| x l IH]; intros H; cbn; [reflexivity |].
  rewrite IH by (intros y Hy; apply H; right; exact Hy). cbn.
  rewrite (H x (or_introl eq_refl)). reflexivity.
Qed.

(** [get_recent_messages(chat_id, limit)] returns [min(limit, n)]
    messages, [n] being the number of messages stored for the chat, and
    all [n] of them when [limit] is negative (SQLite's reading of a
    negative LIMIT); each is the role and content of a message of that
    chat, never of another chat. *)
Theorem recent_messages_shape (chat limit : Z) (t : messages_table) :
  let n := length (List.filter (fun m => (m_chat_id m =? chat)%Z) (m_rows t)) in
  length (get_recent_messages chat limit t) =
    (if (limit <? 0)%Z then n else Nat.min (Z.to_nat limit) n) /\
  Forall (fun d => exists m, In m (m_rows t) /\ m_chat_id m = chat /\
                             d = [("role", JStr (m_role m)); ("content", JStr (m_content m))])
         (get_recent_messages chat limit t).
Proof.
  cbv zeta. unfold get_recent_messages. split.
  - rewrite length_map, length_rev, sql_limit_length, (Permutation_length (sort_by_perm _ _)).
    reflexivity.
  - apply List.Forall_forall. intros d Hd. apply in_map_iff in Hd as (m & <- & Hm).
    apply in_rev, sql_limit_incl in Hm.
    apply (Permutation_in _ (sort_by_perm _ _)) in Hm.
    apply filter_In in Hm as [Hm Hc]. apply Z.eqb_eq in Hc.
    exists m. auto.
Qed.

(** Once a message is saved at a time no earlier than every stored
    message, it is the last (newest) entry of the chat's recent history
    for every limit of at least 1 (or negative), even when other
    messages share its second: ties are broken by the increasing id.
    The precondition (ids up to the sequence, times up to now) holds
    again after the save. *)
Theorem save_then_recent_last (chat : Z) (role content : string) (now limit : Z)
    (t : messages_table) :
  Forall (fun m => (m_id m <= m_seq t)%Z /\ (m_created_at m <= now)%Z) (m_rows t) ->
  (limit < 0 \/ 1 <= limit)%Z ->
  let t' := save_message chat role content now t in
  last (get_recent_messages chat limit t') =
    Some [("role", JStr role); ("content", JStr content)] /\
  Forall (fun m => (m_id m <= m_seq t')%Z /\ (m_created_at m <= now)%Z) (m_rows t').
Proof.
  intros Hinv Hlim. cbv zeta. split.
  - unfold get_recent_messages, save_message. cbn [m_rows m_seq].
    rewrite List.filter_app. cbn [List.filter m_chat_id]. rewrite Z.eqb_refl.
    rewrite sort_by_snoc.
    + unfold sql_limit. destruct (limit <? 0)%Z eqn:El.
      * cbn [rev]. rewrite map_app. apply last_snoc.
      * replace (Z.to_nat limit) with (S (Z.to_nat (limit - 1))) by lia.
        cbn [firstn rev]. rewrite map_app. apply last_snoc.
    + intros x Hx. apply filter_In in Hx as [Hx _].
      rewrite List.Forall_forall in Hinv. destruct (Hinv x Hx) as [Hid Hc].
      unfold msg_before. cbn [m_created_at m_id].
      apply orb_false_iff. split; [apply Z.ltb_ge; lia |].
      apply andb_false_iff. right. apply Z.ltb_ge. lia.
  - unfold save_message. cbn [m_rows m_seq]. apply List.Forall_app. split.
    + eapply List.Forall_impl; [| exact Hinv]. intros m [H1 H2]. split; lia.
    + apply List.Forall_cons; [cbn; lia | apply List.Forall_nil].
Qed.

(** ** Formatting *)



(** ** Scheduled jobs and bot commands *)

Lemma for_each_user_reminder send chats log :
  for_each_user chats (fun c => _send_telegram send c reminder_text) log =
  (Ok tt, log ++ map (fun c => (c, reminder_text))
                 (List.filter (fun c => match send c reminder_text with
                                        | None => true | Some _ => false end) chats)).
Proof.
  revert log. induction chats as [| c cs IH]; intros log; cbn.
  - rewrite app_nil_r. reflexivity.
  - unfold st_bind, st_try, _send_telegram. destruct (send c reminder_text); cbn.
    + apply IH.
    + rewrite IH, <- app_assoc. reflexivity.
Qed.

(** The evening reminder job goes through every registered user once:
    each user whose delivery succeeds gets exactly one reminder, in the
    order of [get_all_users], and a failed delivery neither stops the job
    nor affects the others; the job itself never raises. *)
Theorem evening_reminder_delivers (send : Z -> string -> option exn) (users : users_table)
    (log : sent_log) :
  _job_evening_reminder send users log =
  (Ok tt, log ++ map (fun c => (c, reminder_text))
                 (List.filter (fun c => match send c reminder_text with
                                        | None => true | Some _ => false end)
                    (get_all_users users))).
Proof. apply for_each_user_reminder. Qed.

Lemma for_each_user_raising {L} (chats : list Z) (body : Z -> st L unit) log :
  (forall c, exists e, body c log = (Raise e, log)) ->
  for_each_user chats body log = (Ok tt, log).
Proof.
  intros H. induction chats as [| c cs IH]; cbn; [reflexivity |].
  unfold st_bind, st_try. destruct (H c) as (e & ->). exact IH.
Qed.

(** The morning briefing and evening summary jobs call
    [morning_briefing(chat_id)] and [evening_summary(chat_id)], which
    take no argument: every call raises [TypeError], the job logs it and
    goes on, so no user ever receives a briefing or a summary, whatever
    the user list and the delivery channel. *)
Theorem briefing_jobs_send_nothing (send : Z -> string -> option exn) (users : users_table)
    (log : sent_log) :
  _job_morning_briefing send users log = (Ok tt, log) /\
  _job_evening_summary send users log = (Ok tt, log).
Proof.
  split; apply for_each_user_raising; intros c; eexists; reflexivity.
Qed.

(** The bot's data commands call [aggregate(chat_id)],
    [morning_briefing(chat_id)], [evening_summary(chat_id)] and
    [ask_health_assistant(chat_id, question)], each with one argument
    more than the function takes: for every chat and question the reply
    is the [TypeError] text after the handler's error prefix, and the
    only effect is registering the chat. *)
Theorem bot_data_commands_fail (format_health_summary : json -> string) (chat : Z)
    (question : string) (users : users_table) :
  cmd_health format_health_summary chat users =
    (Ok "❌ Error: aggregate() takes 0 positional arguments but 1 was given",
     ensure_user chat users) /\
  cmd_morning chat users =
    (Ok "❌ Ошибка: morning_briefing() takes 0 positional arguments but 1 was given",
     ensure_user chat users) /\
  cmd_evening chat users =
    (Ok "❌ Ошибка: evening_summary() takes 0 positional arguments but 1 was given",
     ensure_user chat users) /\
  handle_message chat question users =
    (Ok "❌ Ошибка: ask_health_assistant() takes 1 positional argument but 2 were given",
     ensure_user chat users).
Proof. repeat split. Qed.

(** ** Runs of the properties above on concrete inputs *)


(** The windowed Whoop query has no record; the query without a window
    has one, and it is returned. *)
Lemma whoop_latest_fallback_witness :
  let net := fun (_ : json) (_ : string) (p : dict) =>
    match dict_lookup p "start" with
    | Some _ => Response 200 EmptyString (Some (JObj [("records", JList [])]))
    | None => Response 200 EmptyString (Some (JObj [("records", JList [JInt 7])]))
    end in
  let vt : st unit json := st_ret (JStr "tok") in
  whoop_get unit vt net "/recovery"
    [("start", JStr "w0"); ("end", JStr "w1"); ("limit", JInt 1)] tt
    = (Ok (JObj [("records", JList [])]), tt) /\
  whoop_latest unit vt net ("w0", "w1") "/recovery" tt = (Ok (JInt 7), tt).
Proof.
  intros net vt.
  assert (H : whoop_get unit vt net "/recovery"
                [("start", JStr (fst ("w0", "w1"))); ("end", JStr (snd ("w0", "w1")));
                 ("limit", JInt 1)] tt
              = (Ok (JObj [("records", JList [])]), tt)) by reflexivity.
  split; [exact H |].
  destruct (whoop_latest_fallback unit vt net ("w0", "w1") "/recovery" tt _ H) as [_ H2].
  destruct (H2 eq_refl [("records", JList [JInt 7])] ltac:(reflexivity)) as [H3 _].
  exact (H3 (JInt 7) [] eq_refl).
Defined.

(** A Whoop connection from an empty database: the URL is issued, the
    callback stores the token (expiring one hour later) and the state
    store is empty again. *)
Lemma auth_url_then_callback_witness :
  let db := {| oauth_states := ∅; oauth_tokens := ∅ |} in
  let td := JObj [("access_token", JStr "a"); ("expires_in", JInt 3600)] in
  let ex := Response 200 EmptyString (Some td) in
  let r := {| tr_access_token := SText "a"; tr_refresh_token := SNull;
              tr_expires_at := SInt 3700; tr_updated_at := 100 |} in
  oauth_states db !! "s1" = None /\
  raise_for_status_json ex = Ok td /\ token_params td 100 = Ok r /\
  let db1 := {| oauth_states := <["s1" := ("whoop", 5%Z)]> (oauth_states db);
                oauth_tokens := oauth_tokens db |} in
  (exists url, get_auth_url "wid" "oid" "host" (fun _ => "q") "s1" 5 "whoop" db = (Ok url, db1)) /\
  callback "whoop" "Whoop" "s1" None ex 100 db1 =
  (Ok (h2 (String.append "Whoop" " connected! You can close this tab."), 200%Z),
   {| oauth_states := oauth_states db; oauth_tokens := <[(5%Z, "whoop") := r]> (oauth_tokens db) |}).
Proof.
  intros db td ex r.
  assert (Hs : oauth_states db !! "s1" = None) by reflexivity.
  assert (H1 : raise_for_status_json ex = Ok td) by reflexivity.
  assert (H2 : token_params td 100 = Ok r) by reflexivity.
  split; [exact Hs | split; [exact H1 | split; [exact H2 |]]].
  exact (auth_url_then_callback "wid" "oid" "host" (fun _ => "q") "s1" 5 "whoop" "Whoop"
           ex 100 db td r Hs (or_introl eq_refl) H1 H2).
Defined.

(** A URL asked for the provider "fitbit": [ValueError] with the state
    kept, and a Whoop callback presenting it then answers 400. *)
Lemma auth_url_unknown_provider_witness :
  let db := {| oauth_states := ∅; oauth_tokens := ∅ |} in
  String.eqb "fitbit" "whoop" = false /\ String.eqb "fitbit" "oura" = false /\
  oauth_states db !! "s1" = None /\
  let db1 := {| oauth_states := <["s1" := ("fitbit", 5%Z)]> (oauth_states db);
                oauth_tokens := oauth_tokens db |} in
  get_auth_url "wid" "oid" "host" (fun _ => "q") "s1" 5 "fitbit" db =
    (Raise (Exn ValueError (String.append "Unknown provider: " "fitbit")), db1) /\
  forall p' label' err ex now,
    error_given err = false -> "fitbit" <> p' ->
    callback p' label' "s1" err ex now db1 = (Ok (h2 "Invalid state", 400%Z), db).
Proof.
  intros db.
  assert (Hw : String.eqb "fitbit" "whoop" = false) by reflexivity.
  assert (Ho : String.eqb "fitbit" "oura" = false) by reflexivity.
  assert (Hs : oauth_states db !! "s1" = None) by reflexivity.
  split; [exact Hw | split; [exact Ho | split; [exact Hs |]]].
  exact (auth_url_unknown_provider "wid" "oid" "host" (fun _ => "q") "s1" 5 "fitbit" db
           Hw Ho Hs).
Defined.

(** An Oura callback with [error=access_denied], then one with a code. *)
Lemma callback_error_keeps_state_witness :
  let db := {| oauth_states := {["s1" := ("oura", 5%Z)]}; oauth_tokens := ∅ |} in
  let td := JObj [("access_token", JStr "a"); ("refresh_token", JStr "r")] in
  let ex' := Response 200 EmptyString (Some td) in
  let r := {| tr_access_token := SText "a"; tr_refresh_token := SText "r";
              tr_expires_at := SInt 3700; tr_updated_at := 100 |} in
  "access_denied" <> "" /\ oauth_states db !! "s1" = Some ("oura", 5%Z) /\
  raise_for_status_json ex' = Ok td /\ token_params td 100 = Ok r /\
  callback "oura" "Oura" "s1" (Some "access_denied") (NetError "unused") 50 db =
    (Ok (h2 (String.append "Oura" (String.append " auth error: " "access_denied")), 400%Z), db) /\
  callback "oura" "Oura" "s1" None ex' 100 db =
    (Ok (h2 (String.append "Oura" " connected! You can close this tab."), 200%Z),
     {| oauth_states := delete "s1" (oauth_states db);
        oauth_tokens := <[(5%Z, "oura") := r]> (oauth_tokens db) |}).
Proof.
  intros db td ex' r.
  assert (He : "access_denied" <> "") by discriminate.
  assert (Hs : oauth_states db !! "s1" = Some ("oura", 5%Z)) by reflexivity.
  assert (H1 : raise_for_status_json ex' = Ok td) by reflexivity.
  assert (H2 : token_params td 100 = Ok r) by reflexivity.
  split; [exact He | split; [exact Hs | split; [exact H1 | split; [exact H2 |]]]].
  exact (callback_error_keeps_state "oura" "Oura" "s1" "access_denied" (NetError "unused") ex'
           50 100 5 db td r He Hs H1 H2).
Defined.


(** A state issued for Whoop presented to the Oura callback. *)
Lemma callback_provider_mismatch_witness :
  let db := {| oauth_states := {["s1" := ("whoop", 5%Z)]}; oauth_tokens := ∅ |} in
  error_given None = false /\ oauth_states db !! "s1" = Some ("whoop", 5%Z) /\
  "whoop" <> "oura" /\
  callback "oura" "Oura" "s1" None (NetError "unused") 100 db =
    (Ok (h2 "Invalid state", 400%Z),
     {| oauth_states := delete "s1" (oauth_states db); oauth_tokens := oauth_tokens db |}) /\
  forall ex' now',
    callback "whoop" "Oura" "s1" None ex' now'
      {| oauth_states := delete "s1" (oauth_states db); oauth_tokens := oauth_tokens db |} =
    (Ok (h2 "Invalid state", 400%Z),
     {| oauth_states := delete "s1" (oauth_states db); oauth_tokens := oauth_tokens db |}).
Proof.
  intros db.
  assert (He : error_given None = false) by reflexivity.
  assert (Hs : oauth_states db !! "s1" = Some ("whoop", 5%Z)) by reflexivity.
  assert (Hne : "whoop" <> "oura") by discriminate.
  split; [exact He | split; [exact Hs | split; [exact Hne |]]].
  exact (callback_provider_mismatch "oura" "Oura" "s1" "whoop" None (NetError "unused") 100 5 db
           He Hs Hne).
Defined.


(** A reply saved in the same second as the question before it. *)
Lemma save_then_recent_last_witness :
  let t := {| m_rows := [{| m_id := 1; m_chat_id := 5; m_role := "user";
                             m_content := "hi"; m_created_at := 100 |}];
              m_seq := 1 |} in
  Forall (fun m => (m_id m <= m_seq t)%Z /\ (m_created_at m <= 100)%Z) (m_rows t) /\
  (50 < 0 \/ 1 <= 50)%Z /\
  let t' := save_message 5 "assistant" "ok" 100 t in
  last (get_recent_messages 5 50 t') =
    Some [("role", JStr "assistant"); ("content", JStr "ok")] /\
  Forall (fun m => (m_id m <= m_seq t')%Z /\ (m_created_at m <= 100)%Z) (m_rows t').
Proof.
  intros t.
  assert (Hinv : Forall (fun m => (m_id m <= m_seq t)%Z /\ (m_created_at m <= 100)%Z) (m_rows t)).
  { apply List.Forall_cons; [simpl; lia | apply List.Forall_nil]. }
  assert (Hl : (50 < 0 \/ 1 <= 50)%Z) by lia.
  split; [exact Hinv | split; [exact Hl |]].
  exact (save_then_recent_last 5 "assistant" "ok" 100 50 t Hinv Hl).
Defined.

